(** * disable_services.py: stopping and disabling a fixed list of systemd units

    A shallow embedding of [src/disable_services.py] and the properties of it
    that the specification states.

    The script talks to its host through four primitives only:
    [os.geteuid], [shutil.which], [subprocess.run] and [print].  The host is
    a [World] (what those primitives answer); what the script did to it is a
    [State] (the commands handed to [subprocess.run], in order, and the lines
    printed).  A Python [str] is a list of Unicode code points.

    In [main] every [print] succeeds; [main_to] is the same script on a
    console that may refuse a line (closed pipe, encoding), and agrees with
    [main] on a console that takes every line.  Not modelled: exceptions that
    arrive from outside the script's own calls ([KeyboardInterrupt]). *)

From Stdlib Require Import List NArith ZArith String Ascii Bool Lia.
Import ListNotations.

(** ** Python strings *)

Definition str := list N.

(** An ASCII literal of the source, as code points. *)
Definition lit (s : string) : str :=
  map N_of_ascii (list_ascii_of_string s).

Fixpoint str_eqb (a b : str) : bool :=
  match a, b with
  | [], [] => true
  | x :: a', y :: b' => N.eqb x y && str_eqb a' b'
  | _, _ => false
  end.

(** [str.isspace] on one code point (CPython's [Py_UNICODE_ISSPACE]):
    what [str.strip()] and [str.split()] without argument remove. *)
Definition isspace (c : N) : bool :=
  ((9 <=? c) && (c <=? 13) || (28 <=? c) && (c <=? 32)
   || (c =? 0x85) || (c =? 0xA0) || (c =? 0x1680)
   || (0x2000 <=? c) && (c <=? 0x200A)
   || (c =? 0x2028) || (c =? 0x2029) || (c =? 0x202F)
   || (c =? 0x205F) || (c =? 0x3000))%N.

(** Line boundaries of [str.splitlines()] (CPython's
    [Py_UNICODE_ISLINEBREAK]). *)
Definition islinebreak (c : N) : bool :=
  ((10 <=? c) && (c <=? 13) || (28 <=? c) && (c <=? 30)
   || (c =? 0x85) || (c =? 0x2028) || (c =? 0x2029))%N.

Fixpoint lstrip (s : str) : str :=
  match s with
  | [] => []
  | c :: s' => if isspace c then lstrip s' else s
  end.

Definition rstrip (s : str) : str := rev (lstrip (rev s)).

(** [s.strip()] *)
Definition strip (s : str) : str := rstrip (lstrip s).

(** [s.split()]: maximal runs of non-whitespace.  [cur] is the run being
    read, last code point first. *)
Fixpoint split_from (cur : str) (s : str) : list str :=
  match s with
  | [] => match cur with [] => [] | _ => [rev cur] end
  | c :: s' =>
      if isspace c then
        match cur with
        | [] => split_from [] s'
        | _ => rev cur :: split_from [] s'
        end
      else split_from (c :: cur) s'
  end.

Definition split (s : str) : list str := split_from [] s.

(** [s.splitlines()]: the line ends are dropped, CR LF is one line end, and
    no empty last line is reported after a final line end. *)
Fixpoint splitlines_from (cur : str) (s : str) : list str :=
  match s with
  | [] => match cur with [] => [] | _ => [rev cur] end
  | c :: s' =>
      if islinebreak c then
        match s' with
        | c' :: s'' =>
            if ((c =? 13) && (c' =? 10))%N
            then rev cur :: splitlines_from [] s''
            else rev cur :: splitlines_from [] s'
        | [] => [rev cur]
        end
      else splitlines_from (c :: cur) s'
  end.

Definition splitlines (s : str) : list str := splitlines_from [] s.

(** Truthiness of a string and [a or b] on strings. *)
Definition nonempty (s : str) : bool :=
  match s with [] => false | _ => true end.

Definition str_or (a b : str) : str := if nonempty a then a else b.

(** ** The host *)

(** The first argument of [subprocess.run]: with [shell=True] the command
    line as one string, otherwise the list of words. *)
Inductive popen_args :=
| ShellCmd (cmd : str)
| Argv (words : list str).

(** What [subprocess.run] does with [check=False]: a completed process
    with its return code and decoded output, or an exception of class
    [Exception] ([OSError], [ValueError], [UnicodeDecodeError], ...) of
    which only [str(e)] is ever looked at. *)
Inductive proc_outcome :=
| Completed (returncode : Z) (stdout stderr : str)
| Raised (message : str).

(** The host answers a command knowing every command run before it. *)
Record World := {
  geteuid : Z;
  which : str -> option str;
  subprocess : list popen_args -> popen_args -> proc_outcome
}.

Record State := {
  trace : list popen_args;
  console : list str
}.

Definition init : State := {| trace := []; console := [] |}.

(** ** Exceptions and the monad of the script *)

Inductive exn :=
| SystemExit (code : Z)
| IndexError (message : str)
| OtherException (message : str).

(** [str(e)] when [isinstance(e, Exception)]; [SystemExit] derives from
    [BaseException] only, and no [except Exception] sees it. *)
Definition Exception_str (e : exn) : option str :=
  match e with
  | SystemExit _ => None
  | IndexError m => Some m
  | OtherException m => Some m
  end.

Inductive outcome (A : Type) :=
| Ret (a : A)
| Raise (e : exn).
Arguments Ret {A} a.
Arguments Raise {A} e.

Definition M (A : Type) : Type := State -> outcome A * State.

Definition ret {A} (a : A) : M A := fun s => (Ret a, s).

Definition raise {A} (e : exn) : M A := fun s => (Raise e, s).

Definition bind {A B} (m : M A) (k : A -> M B) : M B :=
  fun s =>
    match m s with
    | (Ret a, s') => k a s'
    | (Raise e, s') => (Raise e, s')
    end.

(** A computation that only returns or raises. *)
Definition lift {A} (r : outcome A) : M A := fun s => (r, s).

(** [try: m  except Exception as e: h (str(e))]: the script asks nothing
    else of [e]. *)
Definition try_except {A} (m : M A) (h : str -> M A) : M A :=
  fun s =>
    match m s with
    | (Raise e, s') =>
        match Exception_str e with
        | Some message => h message s'
        | None => (Raise e, s')
        end
    | r => r
    end.

Declare Scope py_scope.
Delimit Scope py_scope with py.
Notation "x <- m ;; k" := (bind m (fun x => k))
  (at level 100, m at next level, right associativity) : py_scope.
Notation "' p <- m ;; k" := (bind m (fun x => match x with p => k end))
  (at level 100, p pattern, m at next level, right associativity) : py_scope.
Notation "m ;; k" := (bind m (fun _ => k))
  (at level 100, right associativity) : py_scope.
Open Scope py_scope.

(** [for x in l: body x] *)
Fixpoint for_each {A} (l : list A) (body : A -> M unit) : M unit :=
  match l with
  | [] => ret tt
  | x :: l' => body x ;; for_each l' body
  end.

(** [print(line)] *)
Definition print (line : str) : M unit :=
  fun s => (Ret tt, {| trace := trace s; console := console s ++ [line] |}).

(** What the interpreter reports to the parent process. *)
Definition exit_status (r : outcome unit) : Z :=
  match r with
  | Ret _ => 0
  | Raise (SystemExit c) => Z.land c 255
  | Raise _ => 1
  end.

(** ** The script *)

Definition SERVICES : list str :=
  [ lit "vsftpd";
    lit "proftpd";
    lit "ssh";
    lit "postfix";
    lit "apache2";
    lit "rpcbind";
    lit "exim4";
    lit "avahi-daemon";
    lit "ModemManager" ].

Section Script.

Variable w : World.

(** [subprocess.run(args, check=False, stdout=PIPE, stderr=PIPE, text=True,
    shell=...)]. *)
Definition subprocess_run (args : popen_args) : M (Z * str * str) :=
  fun s =>
    let s' := {| trace := trace s ++ [args]; console := console s |} in
    match subprocess w (trace s) args with
    | Completed rc out err => (Ret (rc, out, err), s')
    | Raised m => (Raise (OtherException m), s')
    end.

Definition run_command (cmd : str) (use_shell : bool) : M (Z * str * str) :=
  try_except
    ('(returncode, stdout, stderr) <-
        subprocess_run (if use_shell then ShellCmd cmd else Argv (split cmd)) ;;
     ret (returncode, strip stdout, strip stderr))
    (fun str_e => ret (1%Z, [], str_e)).

Definition have_systemctl : bool :=
  match which w (lit "systemctl") with
  | Some _ => true
  | None => false
  end.

Definition list_cmd : str :=
  lit "systemctl list-unit-files --type=service --all --no-legend --no-pager".

(** The [for line in out.splitlines()] loop of [service_exists].  It
    touches neither the host nor the console; [line.split()[0]] of a line
    without a word raises [IndexError]. *)
Fixpoint scan_lines (target : str) (lines : list str) : outcome bool :=
  match lines with
  | [] => Ret false
  | line :: rest =>
      match split line with
      | [] => Raise (IndexError (lit "list index out of range"))
      | first :: _ =>
          let name := strip first in
          if str_eqb name target then Ret true
          else scan_lines target rest
      end
  end.

Definition service_exists (svc : str) : M bool :=
  let cmd := list_cmd in
  '(code, out, _) <- run_command cmd true ;;
  if negb (code =? 0)%Z || negb (nonempty out) then ret false
  else
    let target := svc ++ lit ".service" in
    lift (scan_lines target (splitlines out)).

(** The lines the script prints. *)
Definition msg_no_systemctl : str :=
  [0x274C%N] ++
  lit " systemctl not found. This script requires systemd (Ubuntu default).".
Definition msg_checking (svc : str) : str :=
  [10%N; 0x1F50D%N] ++ lit " Checking status of " ++ svc ++ lit "...".
Definition msg_not_found (svc : str) : str :=
  [0x26A0%N; 0xFE0F%N] ++ lit "  " ++ svc ++
  lit " not found (not installed) or unit file missing.".
Definition msg_exists (svc : str) : str :=
  [0x2705%N] ++ lit " " ++ svc ++ lit " exists. Stopping and disabling it...".
Definition msg_stopped (svc : str) : str :=
  [0x1F6D1%N] ++ lit " Stopped " ++ svc ++ lit ".".
Definition msg_could_not_stop (svc why : str) : str :=
  [0x2139%N; 0xFE0F%N] ++ lit "  Could not stop " ++ svc ++ lit ": " ++ why.
Definition msg_disabled (svc : str) : str :=
  [0x1F6AB%N] ++ lit " Disabled " ++ svc ++ lit ".".
Definition msg_could_not_disable (svc why : str) : str :=
  [0x2139%N; 0xFE0F%N] ++ lit "  Could not disable " ++ svc ++ lit ": " ++ why.
Definition msg_done : str :=
  [10%N; 0x2705%N] ++ lit " All specified services have been processed.".

Definition stop_cmd (sudo svc : str) : str :=
  sudo ++ lit "systemctl stop " ++ svc.
Definition disable_cmd (sudo svc : str) : str :=
  sudo ++ lit "systemctl disable " ++ svc.

(** The body of [for svc in SERVICES]; [continue] ends it early. *)
Definition loop_body (sudo svc : str) : M unit :=
  print (msg_checking svc) ;;
  found <- service_exists svc ;;
  if negb found then
    print (msg_not_found svc)
  else
    print (msg_exists svc) ;;
    '(code, out, err) <- run_command (stop_cmd sudo svc) false ;;
    (if (code =? 0)%Z then print (msg_stopped svc)
     else print (msg_could_not_stop svc (str_or err out))) ;;
    '(code, out, err) <- run_command (disable_cmd sudo svc) false ;;
    if (code =? 0)%Z then print (msg_disabled svc)
    else print (msg_could_not_disable svc (str_or err out)).

Definition sudo_prefix : str :=
  let use_sudo := negb (geteuid w =? 0)%Z in
  if use_sudo then lit "sudo " else [].

Definition main : M unit :=
  let sudo := sudo_prefix in
  if negb have_systemctl then
    print msg_no_systemctl ;;
    raise (SystemExit 1)
  else
    for_each SERVICES (loop_body sudo) ;;
    print msg_done.

End Script.

(** ** Vocabulary of the properties *)

(** The three commands of the script, as [subprocess.run] receives them. *)
Definition list_args : popen_args := ShellCmd list_cmd.
Definition stop_args (sudo svc : str) : popen_args :=
  Argv (split (stop_cmd sudo svc)).
Definition disable_args (sudo svc : str) : popen_args :=
  Argv (split (disable_cmd sudo svc)).

(** The state after one more command, and after one more printed line. *)
Definition invoke (args : popen_args) (s : State) : State :=
  {| trace := trace s ++ [args]; console := console s |}.
Definition say (line : str) (s : State) : State :=
  {| trace := trace s; console := console s ++ [line] |}.

(** The triple [run_command] makes of the host's answer. *)
Definition command_result (r : proc_outcome) : Z * str * str :=
  match r with
  | Completed rc out err => (rc, strip out, strip err)
  | Raised m => (1%Z, [], m)
  end.


(** What [service_exists svc] makes of the answer to the listing. *)
Definition exists_result (r : proc_outcome) (svc : str) : outcome bool :=
  let '(code, out, _) := command_result r in
  if negb (code =? 0)%Z || negb (nonempty out) then Ret false
  else scan_lines (svc ++ lit ".service") (splitlines out).

(** The line printed after the stop, and after the disable. *)
Definition stop_report (svc : str) (r : proc_outcome) : str :=
  let '(code, out, err) := command_result r in
  if (code =? 0)%Z then msg_stopped svc
  else msg_could_not_stop svc (str_or err out).
Definition disable_report (svc : str) (r : proc_outcome) : str :=
  let '(code, out, err) := command_result r in
  if (code =? 0)%Z then msg_disabled svc
  else msg_could_not_disable svc (str_or err out).

(** The states one turn of the loop goes through, from [s]. *)
Definition after_listing (svc : str) (s : State) : State :=
  invoke list_args (say (msg_checking svc) s).
Definition after_stop (w : World) (sudo svc : str) (s : State) : State :=
  say (stop_report svc
         (subprocess w (trace s ++ [list_args]) (stop_args sudo svc)))
      (invoke (stop_args sudo svc)
         (say (msg_exists svc) (after_listing svc s))).
Definition after_disable (w : World) (sudo svc : str) (s : State) : State :=
  say (disable_report svc
         (subprocess w (trace s ++ [list_args; stop_args sudo svc])
                     (disable_args sudo svc)))
      (invoke (disable_args sudo svc) (after_stop w sudo svc s)).

(** What is left of [main] when the loop still has [l] to go through. *)
Definition rest_of_main (w : World) (l : list str) : M unit :=
  for_each l (loop_body w (sudo_prefix w)) ;;
  print msg_done.

(** The commands a loop over [l] may hand to [subprocess.run]. *)
Definition issued_by (sudo : str) (l : list str) (a : popen_args) : Prop :=
  a = list_args \/
  exists svc, In svc l /\ (a = stop_args sudo svc \/ a = disable_args sudo svc).

(** [systemctl] with one of its three subcommands, [stop] and [disable]
    on a listed service and possibly behind [sudo]. *)
Definition systemctl_only (a : popen_args) : Prop :=
  a = ShellCmd
        (lit "systemctl list-unit-files --type=service --all" ++
         lit " --no-legend --no-pager")
  \/
  exists sudo svc verb,
    (sudo = [] \/ sudo = [lit "sudo"]) /\ In svc SERVICES /\
    (verb = lit "stop" \/ verb = lit "disable") /\
    a = Argv (sudo ++ [lit "systemctl"; verb; svc]).

(** Why a command failed, as the script words it: [err or out]. *)
Definition why (r : proc_outcome) : str :=
  let '(_, out, err) := command_result r in str_or err out.

(** A string without whitespace. *)
Definition spaceless (s : str) : Prop := Forall (fun c => isspace c = false) s.

(** A line without a word. *)
Definition wordless (line : str) : Prop := split line = [].

(** A listing that went well shows no wordless line once stripped. *)
Definition clean (r : proc_outcome) : Prop :=
  match r with
  | Completed rc out _ =>
      rc = 0%Z ->
      forall line, In line (splitlines (strip out)) -> ~ wordless line
  | Raised _ => True
  end.

Definition listing_clean (w : World) : Prop :=
  forall history, clean (subprocess w history list_args).



(** Some line of [out] has [target] as its first word. *)
Definition first_word_of_some_line (target out : str) : Prop :=
  exists line others,
    In line (splitlines out) /\ split line = target :: others.

(** ** Some hosts *)

Definition nl : str := [10%N].

Fixpoint words_eqb (x y : list str) : bool :=
  match x, y with
  | [], [] => true
  | u :: x', v :: y' => str_eqb u v && words_eqb x' y'
  | _, _ => false
  end.

Definition args_eqb (a b : popen_args) : bool :=
  match a, b with
  | ShellCmd x, ShellCmd y => str_eqb x y
  | Argv x, Argv y => words_eqb x y
  | _, _ => false
  end.

(** A host with systemd whose listing is always [listing] and whose other
    commands all end as [others]. *)
Definition host (euid : Z) (listing others : proc_outcome) : World :=
  {| geteuid := euid;
     which := fun name =>
       if str_eqb name (lit "systemctl")
       then Some (lit "/usr/bin/systemctl") else None;
     subprocess := fun _ a =>
       match a with ShellCmd _ => listing | Argv _ => others end |}.

(** ssh is installed, the user is not root, nothing can be stopped. *)
Definition ubuntu_host : World :=
  host 1000
    (Completed 0
       (lit "cron.service enabled enabled" ++ nl ++
        lit "ssh.service  enabled enabled" ++ nl) [])
    (Completed 5 [] (lit "Failed to stop unit: Access denied" ++ nl)).

(** As [ubuntu_host] for root, but a command that was run before fails. *)
Definition second_time_host : World :=
  {| geteuid := 0;
     which := which ubuntu_host;
     subprocess := fun history a =>
       match a with
       | ShellCmd _ => subprocess ubuntu_host history a
       | Argv _ =>
           if existsb (args_eqb a) history
           then Completed 1 [] (lit "Unit not loaded.")
           else Completed 0 [] []
       end |}.

(** The listing has an empty line between two units. *)
Definition blank_line_listing : str :=
  lit "cron.service enabled enabled" ++ nl ++ nl ++
  lit "ssh.service  enabled enabled" ++ nl.

Definition blank_line_host : World :=
  host 0 (Completed 0 blank_line_listing []) (Completed 0 [] []).


(** No systemd here. *)
Definition bare_host : World :=
  {| geteuid := 0;
     which := fun _ => None;
     subprocess := fun _ _ => Raised (lit "No such file or directory") |}.

(** ** Further vocabulary *)

(** A string of whitespace only. *)
Definition whitespace (s : str) : Prop := Forall (fun c => isspace c = true) s.

(** The commands of one turn of the loop: the listing, and the stop and
    the disable when the service was found. *)
Definition turn_commands (sudo : str) (turn : str * bool) : list popen_args :=
  let '(svc, found) := turn in
  if found then [list_args; stop_args sudo svc; disable_args sudo svc]
  else [list_args].

(** As [ubuntu_host], with empty lines and blanks around the listing and
    another text on stderr. *)
Definition padded_host : World :=
  host 1000
    (Completed 0
       (nl ++ lit "  " ++ nl ++
        lit "cron.service enabled enabled" ++ nl ++
        lit "ssh.service  enabled enabled" ++ nl ++ nl ++ lit " " ++ nl)
       (lit "warning"))
    (Completed 5 [] (lit "Failed to stop unit: Access denied" ++ nl)).

(** Whether some line of [out] has the unit of [svc] as its first word. *)
Definition unit_listed (svc out : str) : bool :=
  existsb
    (fun line =>
       match split line with
       | first :: _ => str_eqb first (svc ++ lit ".service")
       | [] => false
       end)
    (splitlines out).


(** ModemManager, the last of the list, is installed and root can stop and
    disable it; once it has been disabled, the listing shows an empty line
    below it. *)
Definition second_run_host : World :=
  {| geteuid := 0;
     which := which ubuntu_host;
     subprocess := fun history a =>
       match a with
       | ShellCmd _ =>
           if existsb
                (args_eqb
                   (Argv [lit "systemctl"; lit "disable"; lit "ModemManager"]))
                history
           then
             Completed 0
               (lit "ModemManager.service disabled enabled" ++ nl ++ nl ++
                lit "cron.service         enabled  enabled" ++ nl) []
           else
             Completed 0
               (lit "ModemManager.service enabled  enabled" ++ nl ++
                lit "cron.service         enabled  enabled" ++ nl) []
       | Argv _ => Completed 0 [] []
       end |}.

(** ** A console that may refuse a line *)

(** What [print] does with a line, knowing the lines printed before it:
    [None] when the console takes the line, [Some message] when [print]
    raises ([UnicodeEncodeError] on a console that cannot encode the line,
    [BrokenPipeError] on a closed one), where [message] is [str(e)]. *)
Definition Console : Type := list str -> str -> option str.

(** [print(line)] on such a console: a line that is refused is not
    printed. *)
Definition print_to (tty : Console) (line : str) : M unit :=
  fun s =>
    match tty (console s) line with
    | None => (Ret tt, say line s)
    | Some message => (Raise (OtherException message), s)
    end.

(** The body of the loop and [main] again, printing on that console. *)
Definition loop_body_to (w : World) (tty : Console) (sudo svc : str)
  : M unit :=
  print_to tty (msg_checking svc) ;;
  found <- service_exists w svc ;;
  if negb found then
    print_to tty (msg_not_found svc)
  else
    print_to tty (msg_exists svc) ;;
    '(code, out, err) <- run_command w (stop_cmd sudo svc) false ;;
    (if (code =? 0)%Z then print_to tty (msg_stopped svc)
     else print_to tty (msg_could_not_stop svc (str_or err out))) ;;
    '(code, out, err) <- run_command w (disable_cmd sudo svc) false ;;
    if (code =? 0)%Z then print_to tty (msg_disabled svc)
    else print_to tty (msg_could_not_disable svc (str_or err out)).

Definition main_to (w : World) (tty : Console) : M unit :=
  let sudo := sudo_prefix w in
  if negb (have_systemctl w) then
    print_to tty msg_no_systemctl ;;
    raise (SystemExit 1)
  else
    for_each SERVICES (loop_body_to w tty sudo) ;;
    print_to tty msg_done.

(** A console that takes every line. *)
Definition takes_all (tty : Console) : Prop :=
  forall printed line, tty printed line = None.

Definition terminal : Console := fun _ _ => None.

(** A console that cannot encode the pictures of the script: it refuses
    every line with a code point above 127. *)
Definition ascii_console : Console :=
  fun _ line =>
    if forallb (fun c => (c <=? 127)%N) line then None
    else Some (lit "'ascii' codec can't encode character").


(** ** Proof steps *)

(** Unfolds the states of a turn down to their trace and console. *)
Ltac states :=
  unfold after_disable, after_stop, after_listing, say, invoke;
  cbn [trace console]; rewrite <- ?app_assoc; cbn [app].

Ltac states_in H :=
  unfold after_disable, after_stop, after_listing, say, invoke in H;
  cbn [trace console] in H; rewrite <- ?app_assoc in H; cbn [app] in H.

(** Settles a goal about a listed service by running it on each of the
    nine. *)
Ltac each_service H :=
  cbn [SERVICES In] in H;
  repeat (destruct H as [<-|H]; [vm_compute; reflexivity|]);
  destruct H.

(** ** One turn of the loop *)

Section Turn.

Variable w : World.

Lemma run_command_eq cmd use_shell s :
  run_command w cmd use_shell s =
  (Ret (command_result
          (subprocess w (trace s)
             (if use_shell then ShellCmd cmd else Argv (split cmd)))),
   invoke (if use_shell then ShellCmd cmd else Argv (split cmd)) s).
Proof.
  unfold run_command, try_except, bind, subprocess_run, invoke.
  destruct (subprocess w (trace s) _); reflexivity.
Qed.

Lemma service_exists_eq svc s :
  service_exists w svc s =
  (exists_result (subprocess w (trace s) list_args) svc, invoke list_args s).
Proof.
  unfold service_exists, bind. rewrite run_command_eq.
  unfold exists_result, list_args.
  destruct (command_result _) as [[code out] err].
  destruct (negb (code =? 0)%Z || negb (nonempty out)); reflexivity.
Qed.

Lemma loop_body_eq sudo svc s :
  loop_body w sudo svc s =
  match exists_result (subprocess w (trace s) list_args) svc with
  | Raise e => (Raise e, after_listing svc s)
  | Ret false => (Ret tt, say (msg_not_found svc) (after_listing svc s))
  | Ret true => (Ret tt, after_disable w sudo svc s)
  end.
Proof.
  unfold loop_body, bind at 1 2. cbn [print].
  rewrite service_exists_eq. cbn [trace].
  destruct (exists_result _ svc) as [[|]|e]; cbn [negb]; try reflexivity.
  unfold bind. cbn [print]. rewrite run_command_eq. cbn [trace invoke say].
  unfold after_disable, after_stop, after_listing, stop_report, disable_report,
    stop_args, disable_args, say, invoke. cbn [trace console].
  destruct (command_result (subprocess w (trace s ++ [list_args]) _))
    as [[c1 o1] e1].
  destruct (c1 =? 0)%Z; cbn [print trace console];
    rewrite run_command_eq; cbn [trace invoke];
    rewrite <- !app_assoc; cbn [app];
    destruct (command_result _) as [[c2 o2] e2];
    destruct (c2 =? 0)%Z; unfold print, invoke; cbn [trace console];
    rewrite <- ?app_assoc; reflexivity.
Qed.

End Turn.

(** ** The loop and [main] *)

Section Loop.

Variable w : World.


Lemma main_eq s :
  have_systemctl w = true -> main w s = rest_of_main w SERVICES s.
Proof. intro H. unfold main. rewrite H. reflexivity. Qed.

Lemma main_no_systemctl s :
  have_systemctl w = false ->
  main w s = (Raise (SystemExit 1), say msg_no_systemctl s).
Proof. intro H. unfold main. rewrite H. reflexivity. Qed.


(** *** What a run adds to the trace and to the console *)

Lemma loop_body_grows svc s :
  exists added printed,
    trace (snd (loop_body w (sudo_prefix w) svc s)) = trace s ++ added /\
    console (snd (loop_body w (sudo_prefix w) svc s)) =
      console s ++ printed /\
    Forall (issued_by (sudo_prefix w) [svc]) added.
Proof.
  assert (Hl : issued_by (sudo_prefix w) [svc] list_args)
    by (left; reflexivity).
  assert (Hs : issued_by (sudo_prefix w) [svc] (stop_args (sudo_prefix w) svc))
    by (right; exists svc; split; [left; reflexivity | left; reflexivity]).
  assert (Hd : issued_by (sudo_prefix w) [svc]
                 (disable_args (sudo_prefix w) svc))
    by (right; exists svc; split; [left; reflexivity | right; reflexivity]).
  rewrite loop_body_eq.
  destruct (exists_result _ svc) as [[|]|e]; cbn [snd].
  - exists [list_args; stop_args (sudo_prefix w) svc;
            disable_args (sudo_prefix w) svc].
    eexists. states. repeat split; auto.
  - exists [list_args]. eexists. states. repeat split; auto.
  - exists [list_args]. eexists. states. repeat split; auto.
Qed.

Lemma issued_by_incl l l' a :
  incl l l' -> issued_by (sudo_prefix w) l a -> issued_by (sudo_prefix w) l' a.
Proof.
  intros Hi [H | (x & Hx & H)]; [left; exact H | right].
  exists x. split; [apply Hi, Hx | exact H].
Qed.

Lemma for_each_grows l s :
  exists added printed,
    trace (snd (for_each l (loop_body w (sudo_prefix w)) s)) =
      trace s ++ added /\
    console (snd (for_each l (loop_body w (sudo_prefix w)) s)) =
      console s ++ printed /\
    Forall (issued_by (sudo_prefix w) l) added.
Proof.
  revert s. induction l as [|x l IH]; intro s; cbn [for_each].
  - exists [], []. cbn. rewrite !app_nil_r. auto.
  - destruct (loop_body_grows x s) as (a1 & p1 & Ht1 & Hc1 & Hf1).
    unfold bind.
    destruct (loop_body w (sudo_prefix w) x s) as [[[]|e] s1]; cbn [snd] in *.
    + destruct (IH s1) as (a2 & p2 & Ht2 & Hc2 & Hf2).
      exists (a1 ++ a2), (p1 ++ p2).
      rewrite Ht2, Hc2, Ht1, Hc1, <- !app_assoc. repeat split.
      apply Forall_app. split.
      * eapply Forall_impl; [|exact Hf1]. intro a.
        apply issued_by_incl. intros y [<-|[]]. left; reflexivity.
      * eapply Forall_impl; [|exact Hf2]. intro a.
        apply issued_by_incl. intros y Hy. right; exact Hy.
    + exists a1, p1. repeat split; auto.
      eapply Forall_impl; [|exact Hf1]. intro a.
      apply issued_by_incl. intros y [<-|[]]. left; reflexivity.
Qed.

Lemma rest_of_main_grows l s :
  exists added printed,
    trace (snd (rest_of_main w l s)) = trace s ++ added /\
    console (snd (rest_of_main w l s)) = console s ++ printed /\
    Forall (issued_by (sudo_prefix w) l) added.
Proof.
  destruct (for_each_grows l s) as (a & p & Ht & Hc & Hf).
  unfold rest_of_main, bind.
  destruct (for_each l (loop_body w (sudo_prefix w)) s) as [[[]|e] s1];
    cbn [snd] in *.
  - exists a, (p ++ [msg_done]). cbn. rewrite Ht, Hc, <- app_assoc. auto.
  - exists a, p. auto.
Qed.

End Loop.

(** ** The commands of the listed services *)


Lemma sudo_prefix_cases w : sudo_prefix w = [] \/ sudo_prefix w = lit "sudo ".
Proof. unfold sudo_prefix. destruct (negb _); auto. Qed.

(** No listed name holds whitespace, so each command splits into the words
    one reads in it. *)
Lemma stop_args_words w svc :
  In svc SERVICES ->
  stop_args (sudo_prefix w) svc =
  Argv (split (sudo_prefix w) ++ [lit "systemctl"; lit "stop"; svc]).
Proof.
  intro H. destruct (sudo_prefix_cases w) as [-> | ->]; each_service H.
Qed.

Lemma disable_args_words w svc :
  In svc SERVICES ->
  disable_args (sudo_prefix w) svc =
  Argv (split (sudo_prefix w) ++ [lit "systemctl"; lit "disable"; svc]).
Proof.
  intro H. destruct (sudo_prefix_cases w) as [-> | ->]; each_service H.
Qed.

Lemma split_sudo_prefix w :
  split (sudo_prefix w) = [] \/ split (sudo_prefix w) = [lit "sudo"].
Proof.
  destruct (sudo_prefix_cases w) as [-> | ->]; [left | right]; reflexivity.
Qed.

Lemma issued_by_systemctl_only w a :
  issued_by (sudo_prefix w) SERVICES a -> systemctl_only a.
Proof.
  intros [-> | (svc & Hin & [-> | ->])].
  - left. reflexivity.
  - right. exists (split (sudo_prefix w)), svc, (lit "stop").
    repeat split; auto using split_sudo_prefix, stop_args_words.
  - right. exists (split (sudo_prefix w)), svc, (lit "disable").
    repeat split; auto using split_sudo_prefix, disable_args_words.
Qed.

Section Distinct.

Variable w : World.
Variables x y : str.
Hypothesis Hx : In x SERVICES.
Hypothesis Hy : In y SERVICES.




End Distinct.



(** ** The turn of one service within [main] *)




(** ** Present and absent services *)





(** C7.  Whatever the host answers, every command a run of [main] hands to
    [subprocess.run] is the [systemctl list-unit-files] line, or
    [systemctl stop] or [systemctl disable] of a listed service, alone or
    behind [sudo]; the run only adds to the trace of commands and to the
    console, which is all a [State] holds. *)
Theorem main_runs_systemctl_only w s :
  exists added printed,
    snd (main w s) =
      {| trace := trace s ++ added; console := console s ++ printed |} /\
    Forall systemctl_only added.
Proof.
  assert (Hst : forall s' added printed,
             trace s' = trace s ++ added ->
             console s' = console s ++ printed ->
             s' = {| trace := trace s ++ added;
                     console := console s ++ printed |}).
  { intros [t c] added printed Ht Hc. cbn in *. now subst. }
  destruct (have_systemctl w) eqn:Hsys.
  - rewrite main_eq by assumption.
    destruct (rest_of_main_grows w SERVICES s)
      as (added & printed & Ht & Hc & Hf).
    exists added, printed. split; [now apply Hst|].
    eapply Forall_impl; [|exact Hf]. apply issued_by_systemctl_only.
  - rewrite main_no_systemctl by assumption.
    exists [], [msg_no_systemctl]. split; [|constructor].
    apply Hst; cbn; now rewrite ?app_nil_r.
Qed.

(** C8.  [run_command] returns a triple for every command, either way of
    running it, every host and every state: the return code with stdout and
    stderr stripped when the process completed, and [(1, "", str(e))] when
    [subprocess.run] raised [e].  It hands one command to the host and
    raises nothing. *)
Theorem run_command_total w cmd use_shell s :
  run_command w cmd use_shell s =
  (Ret match subprocess w (trace s)
               (if use_shell then ShellCmd cmd else Argv (split cmd)) with
       | Completed returncode stdout stderr =>
           (returncode, strip stdout, strip stderr)
       | Raised message => (1%Z, [], message)
       end,
   {| trace :=
        trace s ++ [if use_shell then ShellCmd cmd else Argv (split cmd)];
      console := console s |}).
Proof.
  unfold run_command, try_except, bind, subprocess_run.
  destruct (subprocess w (trace s) _) as [returncode stdout stderr | message].
  - (* the process completed: the [try] body returns *)
    reflexivity.
  - (* [subprocess.run] raised: the handler returns *)
    reflexivity.
Qed.

(** ** Failed commands *)







(** ** Running again: listings without a wordless line *)

Lemma scan_lines_total target lines :
  (forall line, In line lines -> ~ wordless line) ->
  exists found, scan_lines target lines = Ret found.
Proof.
  induction lines as [|line rest IH]; intro H; cbn [scan_lines].
  - now exists false.
  - destruct (split line) as [|first others] eqn:Hw.
    + exfalso. apply (H line); [now left | exact Hw].
    + destruct (str_eqb (strip first) target).
      * now exists true.
      * apply IH. intros l Hl. apply H. now right.
Qed.

Lemma clean_exists_result r svc :
  clean r -> exists found, exists_result r svc = Ret found.
Proof.
  destruct r as [rc out err | m]; unfold exists_result; cbn; intro H.
  - destruct (rc =? 0)%Z eqn:Hrc; cbn; [|now exists false].
    destruct (nonempty (strip out)); cbn; [|now exists false].
    apply scan_lines_total, H. now apply Z.eqb_eq.
  - now exists false.
Qed.

Section Clean.

Variable w : World.
Hypothesis Hclean : listing_clean w.

Lemma loop_body_completes svc s :
  exists s', loop_body w (sudo_prefix w) svc s = (Ret tt, s').
Proof.
  rewrite loop_body_eq.
  destruct (clean_exists_result _ svc (Hclean (trace s))) as ([|] & ->);
    eexists; reflexivity.
Qed.

Lemma for_each_completes l s :
  exists s', for_each l (loop_body w (sudo_prefix w)) s = (Ret tt, s').
Proof.
  revert s. induction l as [|svc l IH]; intro s; cbn [for_each].
  - now exists s.
  - unfold bind. destruct (loop_body_completes svc s) as (s1 & ->). apply IH.
Qed.

Lemma main_completes s :
  have_systemctl w = true -> exists s', main w s = (Ret tt, s').
Proof.
  intro Hsys. rewrite main_eq by assumption. unfold rest_of_main, bind.
  destruct (for_each_completes SERVICES s) as (s1 & ->).
  eexists; reflexivity.
Qed.

End Clean.

(** On [second_time_host] the first run stops ssh; the second cannot, and
    returns all the same. *)
Example second_run_cannot_stop :
  let s1 := snd (main second_time_host init) in
  let s2 := snd (main second_time_host s1) in
  existsb (str_eqb (msg_stopped (lit "ssh"))) (console s1) = true /\
  existsb (str_eqb (msg_could_not_stop (lit "ssh") (lit "Unit not loaded.")))
          (skipn (List.length (console s1)) (console s2)) = true /\
  fst (main second_time_host s1) = Ret tt.
Proof. repeat split; vm_compute; reflexivity. Qed.

(** ** Listings that fail *)






(** ** What [service_exists] finds *)

Lemma str_eqb_eq a b : str_eqb a b = true <-> a = b.
Proof.
  revert b. induction a as [|x a IH]; intros [|y b]; cbn; split;
    try discriminate; try reflexivity.
  - intro H. apply andb_prop in H as [Hx Hab].
    apply N.eqb_eq in Hx. apply IH in Hab. now subst.
  - intro H. injection H as -> ->.
    rewrite N.eqb_refl. now apply IH.
Qed.

Lemma lstrip_spaceless s : spaceless s -> lstrip s = s.
Proof.
  destruct s as [|c s]; [reflexivity|]. intro H. cbn.
  apply Forall_inv in H. now rewrite H.
Qed.

Lemma strip_spaceless s : spaceless s -> strip s = s.
Proof.
  intro H. unfold strip, rstrip. rewrite (lstrip_spaceless s H).
  rewrite lstrip_spaceless by now apply Forall_rev.
  apply rev_involutive.
Qed.

(** The words of [split] hold no whitespace. *)
Lemma split_from_spaceless s : forall cur word,
  spaceless cur -> In word (split_from cur s) -> spaceless word.
Proof.
  induction s as [|c s IH]; intros cur word Hcur Hin; cbn in Hin.
  - destruct cur; [destruct Hin|]. destruct Hin as [<-|[]].
    now apply Forall_rev.
  - destruct (isspace c) eqn:Hc.
    + destruct cur as [|c0 cur].
      * now apply (IH []).
      * destruct Hin as [<-|Hin]; [now apply Forall_rev|].
        apply (IH [] word); [constructor | exact Hin].
    + apply (IH (c :: cur) word); [|exact Hin]. now constructor.
Qed.

Lemma strip_word line word others :
  split line = word :: others -> strip word = word.
Proof.
  intro H. apply strip_spaceless.
  apply (split_from_spaceless line [] word); [constructor|].
  unfold split in H. rewrite H. now left.
Qed.

(** [scan_lines] says [True] only for a line whose first word is the
    target. *)
Lemma scan_lines_true target lines :
  scan_lines target lines = Ret true ->
  exists line others, In line lines /\ split line = target :: others.
Proof.
  induction lines as [|line rest IH]; cbn [scan_lines]; [discriminate|].
  destruct (split line) as [|first others] eqn:Hw; [discriminate|].
  destruct (str_eqb (strip first) target) eqn:He.
  - intros _. apply str_eqb_eq in He.
    rewrite (strip_word line first others Hw) in He. subst first.
    exists line, others. split; [now left | exact Hw].
  - intro H. destruct (IH H) as (l & o & Hin & Hl).
    exists l, o. split; [now right | exact Hl].
Qed.

(** Where no line is wordless, it says [True] for every such line. *)
Lemma scan_lines_found target lines :
  (forall line, In line lines -> ~ wordless line) ->
  (exists line others, In line lines /\ split line = target :: others) ->
  scan_lines target lines = Ret true.
Proof.
  induction lines as [|line rest IH]; intros Hw (l & o & Hin & Hl);
    [destruct Hin|]. cbn [scan_lines].
  destruct (split line) as [|first others] eqn:Hs.
  - exfalso. apply (Hw line); [now left | exact Hs].
  - destruct (str_eqb (strip first) target) eqn:He; [reflexivity|].
    apply IH.
    + intros l' Hl'. apply Hw. now right.
    + destruct Hin as [<-|Hin].
      * rewrite Hl in Hs. injection Hs as <- _.
        rewrite (strip_word _ _ _ Hl) in He.
        assert (str_eqb target target = true) by now apply str_eqb_eq.
        congruence.
      * now exists l, o.
Qed.

(** A wordless line met before any line of the target raises. *)
Lemma scan_lines_raises target above blank below :
  (forall line, In line above ->
     exists first others, split line = first :: others /\ first <> target) ->
  wordless blank ->
  scan_lines target (above ++ blank :: below) =
  Raise (IndexError (lit "list index out of range")).
Proof.
  intros Habove Hblank.
  induction above as [|line above IH]; cbn [app scan_lines].
  - now rewrite Hblank.
  - destruct (Habove line (or_introl eq_refl)) as (first & others & Hs & Hne).
    rewrite Hs. destruct (str_eqb (strip first) target) eqn:He.
    + apply str_eqb_eq in He. rewrite (strip_word _ _ _ Hs) in He.
      contradiction.
    + apply IH. intros l Hl. apply Habove. now right.
Qed.

(** [service_exists] returns [True] only when the listing ended with code 0
    and some line of its stripped stdout has the unit as its first word. *)
Lemma service_exists_true_only_if w svc s s' :
  service_exists w svc s = (Ret true, s') ->
  exists out err,
    subprocess w (trace s) list_args = Completed 0 out err /\
    strip out <> [] /\
    first_word_of_some_line (svc ++ lit ".service") (strip out).
Proof.
  rewrite service_exists_eq. intro H. injection H as H _.
  unfold exists_result in H.
  destruct (subprocess w (trace s) list_args) as [rc out err | m];
    cbn [command_result] in H.
  - destruct (rc =? 0)%Z eqn:Hrc; [|discriminate]. apply Z.eqb_eq in Hrc.
    destruct (strip out) as [|c rest] eqn:Hout; [discriminate|]. cbn in H.
    exists out, err. subst rc. rewrite Hout.
    split; [reflexivity|]. split; [discriminate|].
    now apply scan_lines_true.
  - discriminate.
Qed.

(** It does return [True] then, if no line of the stripped stdout is
    wordless. *)
Lemma service_exists_true_if_clean w svc s out err :
  subprocess w (trace s) list_args = Completed 0 out err ->
  (forall line, In line (splitlines (strip out)) -> ~ wordless line) ->
  first_word_of_some_line (svc ++ lit ".service") (strip out) ->
  service_exists w svc s = (Ret true, invoke list_args s).
Proof.
  intros Hr Hclean Hfound. rewrite service_exists_eq, Hr.
  unfold exists_result. cbn [command_result Z.eqb negb orb].
  destruct (strip out) as [|c rest] eqn:Hout.
  - destruct Hfound as (line & others & [] & _).
  - cbn [nonempty negb]. now rewrite scan_lines_found.
Qed.

(** The exit status under clean listings tells whether systemd is there. *)
Lemma exit_status_clean w s :
  listing_clean w ->
  (exit_status (fst (main w s)) <> 0%Z <-> have_systemctl w = false).
Proof.
  intro Hclean. destruct (have_systemctl w) eqn:Hsys.
  - destruct (main_completes w Hclean s Hsys) as (s' & ->). cbn.
    split; [contradiction | discriminate].
  - rewrite main_no_systemctl by assumption. cbn.
    split; [reflexivity | discriminate].
Qed.

(** ** The empty line *)

(** C9.  There is a host with systemd and a listing, ended with code 0,
    whose stripped stdout still has a wordless line, such that
    [service_exists] raises [IndexError] for every listed service, nobody
    catches it, and the run of [main] ends with exit status 1. *)
Theorem service_exists_not_total :
  exists w out,
    have_systemctl w = true /\
    (forall history, subprocess w history list_args = Completed 0 out []) /\
    (exists line, In line (splitlines (strip out)) /\ wordless line) /\
    (forall svc s,
        In svc SERVICES ->
        service_exists w svc s =
        (Raise (IndexError (lit "list index out of range")),
         invoke list_args s)) /\
    fst (main w init) = Raise (IndexError (lit "list index out of range")) /\
    exit_status (fst (main w init)) = 1%Z.
Proof.
  exists blank_line_host, blank_line_listing. repeat split.
  - exists []. split; [vm_compute; auto | reflexivity].
  - intros svc s Hin. rewrite service_exists_eq. f_equal.
    each_service Hin.
Qed.

(** C3, at a host the claim does not allow for.  [blank_line_host] has
    systemd, and its listing ends with code 0; the run of [main] stops at
    the first service with an [IndexError] and exit status 1. *)
Theorem main_exits_nonzero_on_blank_line :
  have_systemctl blank_line_host = true /\
  main blank_line_host init =
    (Raise (IndexError (lit "list index out of range")),
     after_listing (lit "vsftpd") init) /\
  exit_status (fst (main blank_line_host init)) = 1%Z.
Proof.
  split; [reflexivity|].
  split; vm_compute; reflexivity.
Qed.

(** C6, at a listing the claim does not allow for.  The listing of
    [blank_line_host] ends with code 0, its stdout is not empty and one of
    its lines has [ssh.service] as its first word, stripped or not; yet
    [service_exists("ssh")] raises [IndexError] at the empty line above
    that line instead of returning [True]. *)
Theorem service_exists_misses_unit_below_blank_line :
  subprocess blank_line_host (trace init) list_args =
    Completed 0 blank_line_listing [] /\
  nonempty blank_line_listing = true /\
  first_word_of_some_line (lit "ssh" ++ lit ".service") blank_line_listing /\
  first_word_of_some_line (lit "ssh" ++ lit ".service")
    (strip blank_line_listing) /\
  service_exists blank_line_host (lit "ssh") init =
    (Raise (IndexError (lit "list index out of range")), invoke list_args init).
Proof.
  repeat split.
  - exists (lit "ssh.service  enabled enabled"), [lit "enabled"; lit "enabled"].
    split; [vm_compute; auto | reflexivity].
  - exists (lit "ssh.service  enabled enabled"), [lit "enabled"; lit "enabled"].
    split; [vm_compute; auto | reflexivity].
Qed.

(** ** More on [service_exists] *)

(** What makes the scan raise: a wordless line above which every line has
    a first word other than the target. *)
Lemma scan_lines_raise_inv target lines e :
  scan_lines target lines = Raise e ->
  e = IndexError (lit "list index out of range") /\
  exists above blank below,
    lines = above ++ blank :: below /\ wordless blank /\
    forall line, In line above ->
      exists first others, split line = first :: others /\ first <> target.
Proof.
  induction lines as [|line rest IH]; cbn [scan_lines]; [discriminate|].
  destruct (split line) as [|first others] eqn:Hs.
  - intro H. injection H as <-. split; [reflexivity|].
    exists [], line, rest. repeat split; [exact Hs | intros l []].
  - destruct (str_eqb (strip first) target) eqn:He; [discriminate|].
    intro H. destruct (IH H) as (-> & above & blank & below & -> & Hb & Ha).
    split; [reflexivity|].
    exists (line :: above), blank, below. repeat split; [exact Hb|].
    intros l [<-|Hl]; [|now apply Ha].
    exists first, others. split; [exact Hs|].
    intros ->. rewrite (strip_word _ _ _ Hs) in He.
    assert (str_eqb target target = true) by now apply str_eqb_eq.
    congruence.
Qed.

(** X2.  [service_exists] raises exactly when the listing ended with code 0 and
    its stripped stdout has a wordless line above which no line has the unit
    as its first word; what it raises is the [IndexError] of
    [line.split()[0]], after the listing was run. *)
Theorem service_exists_raises_iff w svc s e s' :
  service_exists w svc s = (Raise e, s') <->
  s' = invoke list_args s /\
  e = IndexError (lit "list index out of range") /\
  exists out err above blank below,
    subprocess w (trace s) list_args = Completed 0 out err /\
    splitlines (strip out) = above ++ blank :: below /\
    wordless blank /\
    forall line, In line above ->
      exists first others,
        split line = first :: others /\ first <> svc ++ lit ".service".
Proof.
  rewrite service_exists_eq. split.
  - intro H. injection H as H <-. split; [reflexivity|].
    unfold exists_result in H.
    destruct (subprocess w (trace s) list_args) as [rc out err | m];
      cbn [command_result] in H; [|discriminate].
    destruct (rc =? 0)%Z eqn:Hrc; [|discriminate]. apply Z.eqb_eq in Hrc.
    destruct (nonempty (strip out)); [|discriminate]. cbn in H.
    destruct (scan_lines_raise_inv _ _ _ H)
      as (-> & above & blank & below & Hl & Hb & Ha).
    split; [reflexivity|]. subst rc.
    now exists out, err, above, blank, below.
  - intros (-> & -> & out & err & above & blank & below & Hr & Hl & Hb & Ha).
    f_equal. rewrite Hr. unfold exists_result.
    cbn [command_result Z.eqb negb orb].
    destruct (strip out) as [|c rest] eqn:Hout.
    + destruct above; discriminate Hl.
    + cbn [nonempty negb]. rewrite Hl. now apply scan_lines_raises.
Qed.

(** ** What the scan can return *)



(** ** Only listed units are touched *)

Lemma exists_result_true r svc :
  exists_result r svc = Ret true ->
  exists out err,
    r = Completed 0 out err /\
    first_word_of_some_line (svc ++ lit ".service") (strip out).
Proof.
  unfold exists_result. destruct r as [rc out err | m]; cbn [command_result].
  - destruct (rc =? 0)%Z eqn:Hrc; [|discriminate]. apply Z.eqb_eq in Hrc.
    destruct (nonempty (strip out)); [|discriminate]. cbn. intro H.
    exists out, err. subst rc. split; [reflexivity|].
    now apply scan_lines_true.
  - discriminate.
Qed.

(** X4.  A turn of the loop stops or disables the service only when the listing
    it has just run ended with code 0 and showed the unit as the first word
    of a line. *)
Theorem stop_and_disable_only_if_listed w sudo svc s added a :
  trace (snd (loop_body w sudo svc s)) = trace s ++ added ->
  In a added ->
  a = stop_args sudo svc \/ a = disable_args sudo svc ->
  exists out err,
    subprocess w (trace s) list_args = Completed 0 out err /\
    first_word_of_some_line (svc ++ lit ".service") (strip out).
Proof.
  intros Htrace Hin Ha. rewrite loop_body_eq in Htrace.
  destruct (exists_result (subprocess w (trace s) list_args) svc)
    as [[|]|e] eqn:Hres; cbn [snd] in Htrace.
  - now apply exists_result_true.
  - states_in Htrace. apply app_inv_head in Htrace. subst added.
    destruct Hin as [<-|[]]. destruct Ha as [Ha | Ha]; discriminate Ha.
  - states_in Htrace. apply app_inv_head in Htrace. subst added.
    destruct Hin as [<-|[]]. destruct Ha as [Ha | Ha]; discriminate Ha.
Qed.

(** The turn of ssh on [ubuntu_host] and its stop. *)
Lemma stop_and_disable_only_if_listed_witness :
  exists out err,
    subprocess ubuntu_host (trace init) list_args = Completed 0 out err /\
    first_word_of_some_line (lit "ssh" ++ lit ".service") (strip out).
Proof.
  apply (stop_and_disable_only_if_listed ubuntu_host (lit "sudo ") (lit "ssh")
           init
           [list_args; stop_args (lit "sudo ") (lit "ssh");
            disable_args (lit "sudo ") (lit "ssh")]
           (stop_args (lit "sudo ") (lit "ssh"))).
  - vm_compute. reflexivity.
  - right. left. reflexivity.
  - left. reflexivity.
Defined.

(** ** Who runs what *)

Lemma split_sudo_prefix_euid w :
  split (sudo_prefix w) = if (geteuid w =? 0)%Z then [] else [lit "sudo"].
Proof. unfold sudo_prefix. destruct (geteuid w =? 0)%Z; reflexivity. Qed.

(** X8.  The listing is never run behind [sudo]; the stops and disables are run
    as they stand when the effective user is root, and each of them behind
    [sudo] when it is not. *)
Theorem commands_by_euid w s :
  exists added,
    trace (snd (main w s)) = trace s ++ added /\
    Forall
      (fun a =>
         a = list_args \/
         exists svc verb,
           In svc SERVICES /\ (verb = lit "stop" \/ verb = lit "disable") /\
           a = Argv ((if (geteuid w =? 0)%Z then [] else [lit "sudo"]) ++
                     [lit "systemctl"; verb; svc]))
      added.
Proof.
  destruct (have_systemctl w) eqn:Hsys.
  - rewrite main_eq by assumption.
    destruct (rest_of_main_grows w SERVICES s) as (added & _ & Ht & _ & Hf).
    exists added. split; [exact Ht|].
    eapply Forall_impl; [|exact Hf].
    intros a [-> | (svc & Hin & [-> | ->])]; [now left | right | right].
    + exists svc, (lit "stop"). rewrite <- split_sudo_prefix_euid.
      repeat split; auto using stop_args_words.
    + exists svc, (lit "disable"). rewrite <- split_sudo_prefix_euid.
      repeat split; auto using disable_args_words.
  - rewrite main_no_systemctl by assumption.
    exists []. cbn. rewrite app_nil_r. split; [reflexivity | constructor].
Qed.

(** ** The commands come in turns *)




(** ** The last line *)

Lemma msg_checking_not_done svc : msg_checking svc <> msg_done.
Proof. unfold msg_checking, msg_done. cbn [app]. intro H. discriminate H. Qed.

Lemma loop_body_raise_console w sudo svc s e s' :
  loop_body w sudo svc s = (Raise e, s') ->
  console s' = console s ++ [msg_checking svc].
Proof.
  rewrite loop_body_eq.
  destruct (exists_result _ svc) as [[|]|e']; intro H;
    try discriminate H.
  injection H as _ <-. reflexivity.
Qed.

Lemma for_each_raise_console w sudo l s e s' :
  for_each l (loop_body w sudo) s = (Raise e, s') ->
  exists before svc, console s' = console s ++ before ++ [msg_checking svc].
Proof.
  revert s. induction l as [|svc l IH]; intro s; cbn [for_each];
    [discriminate|].
  unfold bind. destruct (loop_body w sudo svc s) as [[[]|e1] s1] eqn:Hb.
  - intro H. destruct (IH s1 H) as (before & svc' & Hc).
    assert (Hs1 : exists p1, console s1 = console s ++ p1).
    { clear - Hb. rewrite loop_body_eq in Hb.
      destruct (exists_result _ svc) as [[|]|e']; try discriminate Hb;
        injection Hb as <-; eexists; now states. }
    destruct Hs1 as (p1 & Hs1).
    exists (p1 ++ before), svc'. now rewrite Hc, Hs1, <- !app_assoc.
  - intro H. injection H as <- <-.
    exists [], svc. exact (loop_body_raise_console w sudo svc s e1 s1 Hb).
Qed.

(** X10.  The line that all services have been processed is the last line of a
    run exactly when [main] returns: a run that raises ends on another
    line. *)
Theorem done_line_iff_returned w s :
  exists printed,
    console (snd (main w s)) = console s ++ printed /\
    (fst (main w s) = Ret tt <-> exists before, printed = before ++ [msg_done]).
Proof.
  destruct (have_systemctl w) eqn:Hsys.
  - rewrite main_eq by assumption. unfold rest_of_main, bind.
    destruct (for_each SERVICES (loop_body w (sudo_prefix w)) s)
      as [[[]|e] s1] eqn:Hloop.
    + destruct (for_each_grows w SERVICES s) as (_ & p & _ & Hp & _).
      rewrite Hloop in Hp. cbn [snd] in Hp.
      exists (p ++ [msg_done]). cbn. rewrite Hp, <- app_assoc.
      split; [reflexivity|]. split; [now exists p | reflexivity].
    + destruct (for_each_raise_console _ _ _ _ _ _ Hloop)
        as (before & svc & Hc).
      exists (before ++ [msg_checking svc]). cbn [fst snd].
      split; [exact Hc|]. split; [discriminate|].
      intros (b & Hb). apply app_inj_tail in Hb as [_ Hb].
      now apply msg_checking_not_done in Hb.
  - rewrite main_no_systemctl by assumption.
    exists [msg_no_systemctl]. cbn [fst snd say console].
    split; [reflexivity|]. split; [discriminate|].
    intros (b & Hb).
    change [msg_no_systemctl] with ([] ++ [msg_no_systemctl]) in Hb.
    apply app_inj_tail in Hb as [_ Hb].
    vm_compute in Hb. discriminate Hb.
Qed.

(** ** Stripping *)

Lemma lstrip_app x y :
  lstrip (x ++ y) = match lstrip x with [] => lstrip y | _ => lstrip x ++ y end.
Proof.
  induction x as [|c x IH]; cbn [app lstrip]; [reflexivity|].
  destruct (isspace c); [exact IH | reflexivity].
Qed.

Lemma lstrip_whitespace p : whitespace p -> lstrip p = [].
Proof.
  induction 1 as [|c p Hc _ IH]; cbn [lstrip]; [reflexivity|].
  now rewrite Hc.
Qed.

Lemma lstrip_length s : List.length (lstrip s) <= List.length s.
Proof.
  induction s as [|c s IH]; cbn [lstrip]; [lia|].
  destruct (isspace c); cbn [List.length]; lia.
Qed.

Lemma lstrip_fixed_head c s : lstrip (c :: s) = c :: s -> isspace c = false.
Proof.
  cbn [lstrip]. destruct (isspace c); [|reflexivity].
  intro H. pose proof (lstrip_length s) as Hl. rewrite H in Hl.
  cbn [List.length] in Hl. lia.
Qed.

Lemma lstrip_idempotent s : lstrip (lstrip s) = lstrip s.
Proof.
  induction s as [|c s IH]; cbn [lstrip]; [reflexivity|].
  destruct (isspace c) eqn:Hc; [exact IH|]. cbn [lstrip]. now rewrite Hc.
Qed.

Lemma rstrip_idempotent s : rstrip (rstrip s) = rstrip s.
Proof. unfold rstrip. now rewrite rev_involutive, lstrip_idempotent. Qed.

Lemma rstrip_app_whitespace x p : whitespace p -> rstrip (x ++ p) = rstrip x.
Proof.
  intro Hp. unfold rstrip. rewrite rev_app_distr, lstrip_app.
  now rewrite (lstrip_whitespace (rev p)) by now apply Forall_rev.
Qed.

(** [rstrip] leaves alone a string that [lstrip] leaves alone. *)
Lemma lstrip_rstrip s : lstrip s = s -> lstrip (rstrip s) = rstrip s.
Proof.
  destruct s as [|c s]; [reflexivity|]. intro H.
  apply lstrip_fixed_head in H. unfold rstrip. cbn [rev].
  rewrite lstrip_app.
  destruct (lstrip (rev s)) as [|d t].
  - cbn [lstrip]. rewrite H. cbn. now rewrite H.
  - rewrite rev_app_distr. cbn [rev app lstrip]. now rewrite H.
Qed.

Lemma strip_idempotent s : strip (strip s) = strip s.
Proof.
  unfold strip.
  rewrite (lstrip_rstrip (lstrip s)) by apply lstrip_idempotent.
  apply rstrip_idempotent.
Qed.

Lemma strip_padding pad s pad' :
  whitespace pad -> whitespace pad' -> strip (pad ++ s ++ pad') = strip s.
Proof.
  intros Hp Hp'. unfold strip.
  rewrite lstrip_app, (lstrip_whitespace pad Hp), lstrip_app.
  destruct (lstrip s) as [|c t].
  - now rewrite (lstrip_whitespace pad' Hp').
  - now apply rstrip_app_whitespace.
Qed.

(** X5.  What [run_command] returns as stdout is stripped, and so is its stderr
    when the process completed: stripping them again changes nothing.  The
    message of an exception is returned as it is. *)
Theorem run_command_returns_stripped w cmd use_shell s :
  exists code out err,
    fst (run_command w cmd use_shell s) = Ret (code, out, err) /\
    strip out = out /\
    match subprocess w (trace s)
            (if use_shell then ShellCmd cmd else Argv (split cmd)) with
    | Completed _ _ _ => strip err = err
    | Raised message => err = message
    end.
Proof.
  rewrite run_command_eq. cbn [fst].
  destruct (subprocess w (trace s) _) as [rc out err | m]; cbn [command_result].
  - exists rc, (strip out), (strip err).
    repeat split; apply strip_idempotent.
  - exists 1%Z, [], m. repeat split.
Qed.

(** X3.  Whitespace and empty lines before and after the listing, and what
    stderr says, change nothing to [service_exists]: it returns, or raises,
    the same. *)
Theorem service_exists_ignores_padding
    w w' svc s rc out err err' pad pad' :
  whitespace pad -> whitespace pad' ->
  subprocess w (trace s) list_args = Completed rc out err ->
  subprocess w' (trace s) list_args = Completed rc (pad ++ out ++ pad') err' ->
  service_exists w' svc s = service_exists w svc s.
Proof.
  intros Hp Hp' Hr Hr'. rewrite !service_exists_eq, Hr, Hr'.
  unfold exists_result. cbn [command_result].
  now rewrite strip_padding.
Qed.

(** [padded_host] against [ubuntu_host]. *)
Lemma service_exists_ignores_padding_witness :
  service_exists padded_host (lit "ssh") init =
  service_exists ubuntu_host (lit "ssh") init.
Proof.
  apply (service_exists_ignores_padding ubuntu_host padded_host (lit "ssh") init
           0%Z
           (lit "cron.service enabled enabled" ++ nl ++
            lit "ssh.service  enabled enabled" ++ nl)
           [] (lit "warning")
           (nl ++ lit "  " ++ nl) (nl ++ lit " " ++ nl)).
  - vm_compute. repeat constructor.
  - vm_compute. repeat constructor.
  - reflexivity.
  - reflexivity.
Defined.

(** ** When a unit is found *)

Lemma scan_lines_true_iff target lines :
  scan_lines target lines = Ret true <->
  exists above line others below,
    lines = above ++ line :: below /\
    split line = target :: others /\
    forall l, In l above -> ~ wordless l.
Proof.
  split.
  - induction lines as [|line rest IH]; cbn [scan_lines]; [discriminate|].
    destruct (split line) as [|first others] eqn:Hs; [discriminate|].
    destruct (str_eqb (strip first) target) eqn:He.
    + intros _. apply str_eqb_eq in He.
      rewrite (strip_word _ _ _ Hs) in He. subst first.
      exists [], line, others, rest. repeat split; [exact Hs | intros l []].
    + intro H. destruct (IH H) as (above & l & o & below & -> & Hl & Ha).
      exists (line :: above), l, o, below. repeat split; [exact Hl|].
      intros l' [<-|Hl']; [|now apply Ha].
      unfold wordless. now rewrite Hs.
  - intros (above & line & others & below & -> & Hl & Ha).
    induction above as [|l above IH]; cbn [app scan_lines].
    + rewrite Hl, (strip_word _ _ _ Hl).
      assert (str_eqb target target = true) as -> by now apply str_eqb_eq.
      reflexivity.
    + destruct (split l) as [|first o] eqn:Hs.
      * exfalso. apply (Ha l); [now left | exact Hs].
      * destruct (str_eqb (strip first) target); [reflexivity|].
        apply IH. intros l' Hl'. apply Ha. now right.
Qed.

(** X1.  [service_exists] returns [True] exactly when the listing ended with
    code 0 and some line of its stripped stdout has the unit as its first
    word, with no wordless line above that line; what comes below the line
    is not read. *)
Theorem service_exists_true_iff w svc s s' :
  service_exists w svc s = (Ret true, s') <->
  s' = invoke list_args s /\
  exists out err above line others below,
    subprocess w (trace s) list_args = Completed 0 out err /\
    splitlines (strip out) = above ++ line :: below /\
    split line = (svc ++ lit ".service") :: others /\
    forall l, In l above -> ~ wordless l.
Proof.
  rewrite service_exists_eq. split.
  - intro H. injection H as H <-. split; [reflexivity|].
    unfold exists_result in H.
    destruct (subprocess w (trace s) list_args) as [rc out err | m];
      cbn [command_result] in H; [|discriminate].
    destruct (rc =? 0)%Z eqn:Hrc; [|discriminate]. apply Z.eqb_eq in Hrc.
    destruct (nonempty (strip out)); [|discriminate]. cbn in H.
    apply scan_lines_true_iff in H
      as (above & line & others & below & Hl & Hw & Ha).
    subst rc. now exists out, err, above, line, others, below.
  - intros (-> & out & err & above & line & others & below
            & Hr & Hl & Hw & Ha).
    f_equal. rewrite Hr. unfold exists_result.
    cbn [command_result Z.eqb negb orb].
    destruct (strip out) as [|c rest] eqn:Hout.
    + destruct above; discriminate Hl.
    + cbn [nonempty negb]. apply scan_lines_true_iff.
      now exists above, line, others, below.
Qed.

(** ** Failed commands and the console *)





(** ** Running again *)

(** C5, at a second run the claim does not allow for.  On [second_run_host]
    the first run of [main] comes to every service, stops and disables
    ModemManager and returns.  The second run, started in the state the
    first one left, gets the listing with the empty line: it raises
    [IndexError] in the turn of the first service, runs no other command,
    and ends with exit status 1. *)
Theorem second_run_halts_on_blank_line :
  have_systemctl second_run_host = true /\
  fst (main second_run_host init) = Ret tt /\
  trace (snd (main second_run_host init)) =
    repeat list_args 9 ++
    [Argv [lit "systemctl"; lit "stop"; lit "ModemManager"];
     Argv [lit "systemctl"; lit "disable"; lit "ModemManager"]] /\
  main second_run_host (snd (main second_run_host init)) =
    (Raise (IndexError (lit "list index out of range")),
     after_listing (lit "vsftpd") (snd (main second_run_host init))) /\
  exit_status (fst (main second_run_host (snd (main second_run_host init)))) =
    1%Z.
Proof.
  split; [reflexivity|].
  repeat split; vm_compute; reflexivity.
Qed.

(** ** The script on a console that may refuse a line *)

Lemma bind_ext (A B : Type) (m m' : M A) (k k' : A -> M B) s :
  m s = m' s ->
  (forall a s1, k a s1 = k' a s1) ->
  bind m k s = bind m' k' s.
Proof.
  intros Hm Hk. unfold bind. rewrite Hm.
  destruct (m' s) as [[a|e] s1]; [apply Hk | reflexivity].
Qed.

Lemma for_each_ext (f g : str -> M unit) l s :
  (forall x s1, f x s1 = g x s1) -> for_each l f s = for_each l g s.
Proof.
  intro H. revert s. induction l as [|x l IH]; intro s; cbn [for_each].
  - reflexivity.
  - apply bind_ext; [apply H | intros _ s1; apply IH].
Qed.

Section Console.

Variable w : World.
Variable tty : Console.

Lemma print_to_takes_all line s :
  takes_all tty -> print_to tty line s = print line s.
Proof. intro H. unfold print_to. now rewrite H. Qed.

(** On a console that takes every line the script is the script. *)
Lemma loop_body_to_takes_all sudo svc s :
  takes_all tty -> loop_body_to w tty sudo svc s = loop_body w sudo svc s.
Proof.
  intro H. unfold loop_body_to, loop_body.
  apply bind_ext; [now apply print_to_takes_all|]. intros _ s1.
  apply bind_ext; [reflexivity|]. intros found s2.
  destruct found; cbn [negb]; [|now apply print_to_takes_all].
  apply bind_ext; [now apply print_to_takes_all|]. intros _ s3.
  apply bind_ext; [reflexivity|]. intros [[code out] err] s4.
  apply bind_ext.
  { destruct (code =? 0)%Z; now apply print_to_takes_all. }
  intros _ s5.
  apply bind_ext; [reflexivity|]. intros [[code' out'] err'] s6.
  destruct (code' =? 0)%Z; now apply print_to_takes_all.
Qed.

Lemma main_to_takes_all s :
  takes_all tty -> main_to w tty s = main w s.
Proof.
  intro H. unfold main_to, main. destruct (negb (have_systemctl w)).
  - apply bind_ext; [now apply print_to_takes_all | reflexivity].
  - apply bind_ext.
    + apply for_each_ext. intros svc s1. now apply loop_body_to_takes_all.
    + intros _ s1. now apply print_to_takes_all.
Qed.

(** *** How a run ends *)







End Console.


(** X7.  On a host whose listings show no wordless line and a console that
    takes every line, the exit status of [main] is nonzero exactly when
    there is no systemctl. *)
Theorem exit_status_clean_console w tty s :
  listing_clean w ->
  takes_all tty ->
  (exit_status (fst (main_to w tty s)) <> 0%Z <-> have_systemctl w = false).
Proof.
  intros Hclean Htty. rewrite main_to_takes_all by assumption.
  now apply exit_status_clean.
Qed.

Lemma exit_status_clean_console_witness :
  exit_status (fst (main_to ubuntu_host terminal init)) <> 0%Z <->
  have_systemctl ubuntu_host = false.
Proof.
  apply (exit_status_clean_console ubuntu_host terminal init).
  - intros history _ line Hin. vm_compute in Hin.
    destruct Hin as [<-|[<-|[]]]; vm_compute; discriminate.
  - intros printed line. reflexivity.
Defined.

(** On [ascii_console] the first [print] of a run raises, before any
    command: the run ends with exit status 1 although systemctl is there
    and the listing is clean. *)
Example main_to_ascii_console :
  have_systemctl ubuntu_host = true /\
  main_to ubuntu_host ascii_console init =
    (Raise (OtherException (lit "'ascii' codec can't encode character")),
     init) /\
  exit_status (fst (main_to ubuntu_host ascii_console init)) = 1%Z.
Proof. repeat split. Qed.

(** ** What a run does to a host with a fixed listing *)

Lemma scan_lines_clean target lines :
  (forall line, In line lines -> ~ wordless line) ->
  scan_lines target lines =
  Ret (existsb
         (fun line =>
            match split line with
            | first :: _ => str_eqb first target
            | [] => false
            end) lines).
Proof.
  induction lines as [|line rest IH]; intro H; cbn [scan_lines existsb].
  - reflexivity.
  - destruct (split line) as [|first others] eqn:Hs.
    + exfalso. apply (H line); [now left | exact Hs].
    + rewrite (strip_word _ _ _ Hs).
      destruct (str_eqb first target); [reflexivity|].
      cbn [orb]. apply IH. intros l Hl. apply H. now right.
Qed.

Section FixedListing.

Variable w : World.
Variable out : str.

Hypothesis Hlisting :
  forall history, exists err,
    subprocess w history list_args = Completed 0 out err.
Hypothesis Hclean :
  forall line, In line (splitlines (strip out)) -> ~ wordless line.

Lemma fixed_listing_exists_result history svc :
  exists_result (subprocess w history list_args) svc =
  Ret (unit_listed svc (strip out)).
Proof.
  destruct (Hlisting history) as (err & ->).
  unfold exists_result, unit_listed. cbn [command_result Z.eqb negb orb].
  destruct (strip out) as [|c rest] eqn:Hout; [reflexivity|].
  cbn [nonempty negb]. now apply scan_lines_clean.
Qed.

Lemma fixed_listing_loop_body sudo svc s :
  fst (loop_body w sudo svc s) = Ret tt /\
  trace (snd (loop_body w sudo svc s)) =
    trace s ++ turn_commands sudo (svc, unit_listed svc (strip out)).
Proof.
  rewrite loop_body_eq, fixed_listing_exists_result.
  destruct (unit_listed svc (strip out)); cbn [fst snd turn_commands];
    split; try reflexivity; now states.
Qed.

Lemma fixed_listing_for_each sudo l s :
  fst (for_each l (loop_body w sudo) s) = Ret tt /\
  trace (snd (for_each l (loop_body w sudo) s)) =
    trace s ++
    flat_map (fun svc => turn_commands sudo (svc, unit_listed svc (strip out)))
      l.
Proof.
  revert s. induction l as [|svc l IH]; intro s; cbn [for_each flat_map].
  - cbn. now rewrite app_nil_r.
  - destruct (fixed_listing_loop_body sudo svc s) as (Hr & Ht).
    unfold bind. destruct (loop_body w sudo svc s) as [[[]|e] s1];
      cbn [fst snd] in Hr, Ht; [|discriminate Hr].
    destruct (IH s1) as (Hr' & Ht'). split; [exact Hr'|].
    now rewrite Ht', Ht, <- app_assoc.
Qed.

End FixedListing.

(** X11.  On a host with systemctl whose listing always ends with code 0
    and the same stdout, without a wordless line, and a console that takes
    every line, a run of [main] returns, and the commands it runs are, for
    each service of the list in turn, the listing, followed by the stop and
    the disable of the service when its unit is the first word of a line of
    the listing and by nothing when it is not. *)
Theorem main_stops_and_disables_the_listed w tty s out :
  have_systemctl w = true ->
  takes_all tty ->
  (forall history, exists err,
      subprocess w history list_args = Completed 0 out err) ->
  (forall line, In line (splitlines (strip out)) -> ~ wordless line) ->
  fst (main_to w tty s) = Ret tt /\
  trace (snd (main_to w tty s)) =
    trace s ++
    flat_map
      (fun svc =>
         if unit_listed svc (strip out)
         then [list_args; stop_args (sudo_prefix w) svc;
               disable_args (sudo_prefix w) svc]
         else [list_args])
      SERVICES.
Proof.
  intros Hsys Htty Hlisting Hclean.
  rewrite main_to_takes_all, main_eq by assumption.
  destruct (fixed_listing_for_each w out Hlisting Hclean (sudo_prefix w)
              SERVICES s) as (Hr & Ht).
  unfold rest_of_main, bind.
  destruct (for_each SERVICES (loop_body w (sudo_prefix w)) s)
    as [[[]|e] s1]; cbn [fst snd] in Hr, Ht; [|discriminate Hr].
  split; [reflexivity|]. exact Ht.
Qed.

(** [ubuntu_host] on a terminal: of the nine services only ssh is stopped
    and disabled. *)
Lemma main_stops_and_disables_the_listed_witness :
  fst (main_to ubuntu_host terminal init) = Ret tt /\
  trace (snd (main_to ubuntu_host terminal init)) =
    [list_args; list_args; list_args;
     Argv [lit "sudo"; lit "systemctl"; lit "stop"; lit "ssh"];
     Argv [lit "sudo"; lit "systemctl"; lit "disable"; lit "ssh"];
     list_args; list_args; list_args; list_args; list_args; list_args].
Proof.
  apply (main_stops_and_disables_the_listed ubuntu_host terminal init
           (lit "cron.service enabled enabled" ++ nl ++
            lit "ssh.service  enabled enabled" ++ nl)).
  - reflexivity.
  - intros printed line. reflexivity.
  - intro history. exists []. reflexivity.
  - intros line Hin. vm_compute in Hin.
    destruct Hin as [<-|[<-|[]]]; vm_compute; discriminate.
Defined.
